(** * Voice-chat front end: the request handler [voice_chat]

    A shallow embedding of [gradio_app/app.py].  The only function with
    behaviour of its own is [voice_chat] (lines 18-124): it saves the
    captured audio as a WAV file in the temporary directory, uploads it with
    one multipart HTTP POST, and turns the reply into a pair
    (path of the reply audio or [None], status text).

    The handler talks to a clock, a disk and an HTTP server.  They are
    modelled by an environment of oracles ([Env]) and an explicit world
    state ([World]) threaded through a small state-and-exception monad.
    Calls to [logger] and to the [progress] callback only report to the
    console and to the page and are left out. *)

From Stdlib Require Import ZArith Lia Ascii.
From stdpp Require Import gmap strings list pretty.

Open Scope string_scope.
Open Scope Z_scope.

(** ** Python values the handler manipulates *)

Abbreviation bytes := (list Byte.byte).

#[global] Instance byte_eq_dec : EqDecision Byte.byte := Byte.byte_eq_dec.

(** Exceptions, by the classes the [except] clauses test for (lines 60-73,
    103, 121).  In [requests.exceptions] a [ConnectTimeout] is both a
    [Timeout] and a [ConnectionError].  [str_exn] is Python's [str(e)]. *)
Inductive exn :=
| Timeout (msg : string)          (* a Timeout that is no ConnectionError *)
| ConnectTimeout (msg : string)   (* a Timeout and a ConnectionError *)
| ConnectionError (msg : string)  (* a ConnectionError that is no Timeout *)
| OtherException (msg : string).  (* any other subclass of Exception *)

Definition str_exn (e : exn) : string :=
  match e with
  | Timeout m | ConnectTimeout m | ConnectionError m | OtherException m => m
  end.

(** [isinstance(e, requests.exceptions.Timeout)] *)
Definition is_timeout (e : exn) : bool :=
  match e with
  | Timeout _ | ConnectTimeout _ => true
  | _ => false
  end.

(** [isinstance(e, requests.exceptions.ConnectionError)] *)
Definition is_connection_error (e : exn) : bool :=
  match e with
  | ConnectTimeout _ | ConnectionError _ => true
  | _ => false
  end.

(** What [response.json()] can hand back. *)
#[local] Unset Elimination Schemes.
Inductive json :=
| JNull
| JBool (b : bool)
| JNumber (literal : string)
| JString (s : string)
| JArray (items : list json)
| JObject (items : list (string * json)).
#[local] Set Elimination Schemes.

(** [requests.Response]: the two attributes the handler reads. *)
Record Response := mkResponse {
  status_code : Z;
  content : bytes
}.

(** One entry of the [files=] argument of [requests.post]:
    field name -> (filename, file contents, content type). *)
Record FilePart := mkFilePart {
  part_field : string;
  part_filename : string;
  part_data : bytes;
  part_content_type : string
}.

Record Request := mkRequest {
  req_url : string;
  req_files : list FilePart;
  req_timeout : Z
}.

Inductive post_outcome :=
| PostRaises (e : exn)
| PostReturns (r : Response).

(** How a write to the disk can end. *)
Inductive disk_outcome :=
| Stored                 (* the bytes are in the file *)
| Refused (msg : string) (* open() raises OSError: nothing changes *)
| Broken (msg : string)  (* open() succeeds, the write raises OSError:
                            the file is left with length 0 *)
| Vanished               (* returns normally, the path does not exist after *)
| Truncated.             (* returns normally, the file is there with length 0 *)

(** ** Environment and world *)

Section Handler.

(** [ndarray] is the type of the sample buffer gradio hands over. *)
Context {ndarray : Type}.

Record Env := mkEnv {
  (** [tempfile.gettempdir()] *)
  gettempdir : string;
  (** [int(time.time())] at the n-th reading of the clock *)
  clock : nat → Z;
  (** the bytes [scipy.io.wavfile.write] produces, or the message of the
      exception it raises *)
  wav_bytes : Z → ndarray → string + bytes;
  (** outcome of writing [data] to [path] *)
  disk : string → bytes → disk_outcome;
  (** [Some msg]: opening [path] for reading raises OSError *)
  read_fault : string → option string;
  (** what the network and the server do with a request *)
  server : Request → post_outcome;
  (** the JSON decoder behind [response.json()]; [None]: it raises *)
  json_loads : bytes → option json;
  (** Python's [str] of a JSON value that is not a string *)
  py_str : json → string
}.

Record World := mkWorld {
  files : gmap string bytes;                       (* the file system *)
  clock_reads : nat;                               (* readings taken so far *)
  writes : list (string * bytes * disk_outcome);   (* newest first *)
  posts : list (Request * post_outcome)            (* newest first *)
}.

(** ** The monad: state plus Python exceptions *)

Inductive result (A : Type) :=
| Ret (a : A)
| Raise (e : exn).
Global Arguments Ret {A} a.
Global Arguments Raise {A} e.

Definition M (A : Type) : Type := World → result A * World.

Definition ret {A} (a : A) : M A := λ w, (Ret a, w).
Definition raise {A} (e : exn) : M A := λ w, (Raise e, w).

Definition bind {A B} (m : M A) (k : A → M B) : M B :=
  λ w, match m w with
       | (Ret a, w') => k a w'
       | (Raise e, w') => (Raise e, w')
       end.

(** [try: m  except Exception as e: h e] *)
Definition try_except {A} (m : M A) (h : exn → M A) : M A :=
  λ w, match m w with
       | (Ret a, w') => (Ret a, w')
       | (Raise e, w') => h e w'
       end.

(** A [try] whose handlers all leave the function: the caller gets either
    the value of the body or the exception to dispatch on. *)
Definition attempt {A} (m : M A) : M (A + exn) :=
  try_except (bind m (λ a, ret (inl a))) (λ e, ret (inr e)).

End Handler.

Arguments Env : clear implicits.

Notation "'do' x ← m ; k" := (bind m (λ x, k))
  (at level 10, x name, m at level 100, k at level 200,
   format "'[v' 'do'  x  ←  m ; '/' k ']'").
Notation "'run' m ; k" := (bind m (λ _, k))
  (at level 10, m at level 100, k at level 200,
   format "'[v' 'run'  m ; '/' k ']'").

(** ** Library calls *)

(** [os.path.join] with two arguments, as [posixpath] defines it. *)
Fixpoint ends_with_slash (s : string) : bool :=
  match s with
  | EmptyString => false
  | String c EmptyString => bool_decide (c = "/"%char)
  | String _ rest => ends_with_slash rest
  end.

Definition os_path_join (a b : string) : string :=
  if String.prefix "/" b then b
  else if bool_decide (a = "") || ends_with_slash a then a +:+ b
  else a +:+ "/" +:+ b.

(** [dict.get(key)] on the items of a decoded JSON object. *)
Fixpoint dict_get (key : string) (items : list (string * json)) : option json :=
  match items with
  | [] => None
  | (k, v) :: rest => if decide (k = key) then Some v else dict_get key rest
  end.

Section Primitives.

Context {ndarray : Type} (env : Env ndarray).

(** [int(time.time())] *)
Definition time_time : M Z := λ w,
  (Ret (clock env (clock_reads w)),
   mkWorld (files w) (S (clock_reads w)) (writes w) (posts w)).

(** [with open(path, "wb") as f: f.write(data)] *)
Definition write_file (path : string) (data : bytes) : M unit := λ w,
  let o := disk env path data in
  let after fs :=
    mkWorld fs (clock_reads w) ((path, data, o) :: writes w) (posts w) in
  match o with
  | Stored => (Ret (), after (<[path:=data]> (files w)))
  | Refused msg => (Raise (OtherException msg), after (files w))
  | Broken msg => (Raise (OtherException msg), after (<[path:=[]]> (files w)))
  | Vanished => (Ret (), after (delete path (files w)))
  | Truncated => (Ret (), after (<[path:=[]]> (files w)))
  end.

(** [scipy.io.wavfile.write(path, sr, data)].  The library opens the file
    for writing before it looks at the data: when the data cannot be
    encoded, the file has been opened and is closed with nothing in it. *)
Definition wavfile_write (path : string) (sr : Z) (data : ndarray) : M unit :=
  match wav_bytes env sr data with
  | inl msg => bind (write_file path []) (λ _, raise (OtherException msg))
  | inr b => write_file path b
  end.

(** [os.path.exists(path)] *)
Definition path_exists (path : string) : M bool := λ w,
  (Ret (bool_decide (is_Some (files w !! path))), w).

(** [os.path.getsize(path)] *)
Definition path_getsize (path : string) : M Z := λ w,
  match files w !! path with
  | Some b => (Ret (Z.of_nat (length b)), w)
  | None =>
      (Raise (OtherException
                ("[Errno 2] No such file or directory: '" +:+ path +:+ "'")), w)
  end.

(** [open(path, "rb")], read in full by the upload *)
Definition open_rb (path : string) : M bytes := λ w,
  match read_fault env path with
  | Some msg => (Raise (OtherException msg), w)
  | None =>
      match files w !! path with
      | Some b => (Ret b, w)
      | None =>
          (Raise (OtherException
                    ("[Errno 2] No such file or directory: '" +:+ path +:+ "'")),
           w)
      end
  end.

(** [requests.post(url, files=..., timeout=...)] *)
Definition requests_post (req : Request) : M Response := λ w,
  let o := server env req in
  let w' := mkWorld (files w) (clock_reads w) (writes w) ((req, o) :: posts w) in
  match o with
  | PostRaises e => (Raise e, w')
  | PostReturns r => (Ret r, w')
  end.

(** [response.json()] *)
Definition response_json (r : Response) : M json :=
  match json_loads env (content r) with
  | Some j => ret j
  | None => raise (OtherException "Expecting value")
  end.

(** [error_content.get(key, default)]; only a dict has [get]. *)
Definition json_get (j : json) (key : string) (dflt : json) : M json :=
  match j with
  | JObject items => ret (default dflt (dict_get key items))
  | _ => raise (OtherException "object has no attribute 'get'")
  end.

(** An f-string field [{v}]. *)
Definition fstr (v : json) : string :=
  match v with
  | JString s => s
  | _ => py_str env v
  end.

End Primitives.

(** ** The handler *)

Definition API_URL : string := "http://localhost:8000/voice-chat".
Definition REQUEST_TIMEOUT : Z := 300.

Section VoiceChat.

Context {ndarray : Type} (env : Env ndarray).

(** Line 35: [f"input_{int(time.time())}.wav"] *)
Definition input_filename (t : Z) : string := "input_" +:+ pretty t +:+ ".wav".

(** Line 90: [f"tts_output_{int(time.time())}.wav"] *)
Definition output_filename (t : Z) : string :=
  "tts_output_" +:+ pretty t +:+ ".wav".

(** Lines 112-116: the detail of a server error, with the bare [except]. *)
Definition error_detail (response : Response) : M json :=
  let fallback := JString ("Kode status: " +:+ pretty (status_code response)) in
  try_except
    (do error_content ← match content response with
                     | [] => ret (JObject [])
                     | _ :: _ => response_json env response
                     end ;
     json_get error_content "message" fallback)
    (λ _, ret fallback).

(** Lines 18-124. *)
Definition voice_chat (audio : option (Z * ndarray))
  : M (option string * string) :=
  match audio with
  | None => ret (None, "⚠️ Rekaman suara diperlukan")
  | Some (sr, audio_data) =>
    try_except
      (do t ← time_time env ;
       let audio_filename := input_filename t in
       let audio_path := os_path_join (gettempdir env) audio_filename in
       run wavfile_write env audio_path sr audio_data ;
       do saved ← path_exists audio_path ;
       if negb saved then ret (None, "⚠️ Gagal menyimpan rekaman")
       else
         do sent ← attempt
                  (do f ← open_rb env audio_path ;
                   requests_post env
                     (mkRequest API_URL
                        [mkFilePart "file" audio_filename f "audio/wav"]
                        REQUEST_TIMEOUT)) ;
         match sent with
         | inr (Timeout _) | inr (ConnectTimeout _) =>
             ret (None, "🕒 Waktu habis. Server terlalu lama merespons.")
         | inr (ConnectionError _) =>
             ret (None, "🔌 Koneksi ke server gagal. Pastikan server aktif di http://localhost:8000")
         | inr (OtherException _ as e) =>
             ret (None, "🔴 Kesalahan: " +:+ str_exn e)
         | inl response =>
             if decide (status_code response = 200) then
               match content response with
               | [] => ret (None, "⚠️ Server mengembalikan respons kosong")
               | _ :: _ =>
                   do t' ← time_time env ;
                   let output_audio_path :=
                     os_path_join (gettempdir env) (output_filename t') in
                   do checked ← attempt
                               (run write_file env output_audio_path
                                      (content response) ;
                                do there ← path_exists output_audio_path ;
                                if negb there then ret true
                                else
                                  do size ← path_getsize output_audio_path ;
                                  ret (bool_decide (size = 0))) ;
                   match checked with
                   | inl true =>
                       ret (None, "⚠️ File audio respons kosong atau tidak valid")
                   | inl false =>
                       ret (Some output_audio_path, "✅ Jawaban siap diputar")
                   | inr e =>
                       ret (None, "⚠️ Gagal menyimpan file audio respons: "
                                  +:+ str_exn e)
                   end
               end
             else
               do error_detail ← error_detail response ;
               ret (None, "⚠️ Error Server: " +:+ fstr env error_detail)
         end)
      (λ e, ret (None, "⚠️ Kesalahan sistem: " +:+ str_exn e))
  end.

End VoiceChat.

(** ** The WAV container *)

Definition byte_of_Z (z : Z) : Byte.byte :=
  default Byte.x00 (Byte.of_N (Z.to_N (z mod 256))).

Definition Z_of_byte (b : Byte.byte) : Z := Z.of_N (Byte.to_N b).

(** [n] bytes, least significant first, of [z] modulo [256^n]. *)
Fixpoint le_bytes (n : nat) (z : Z) : bytes :=
  match n with
  | O => []
  | S n' => byte_of_Z z :: le_bytes n' (z / 256)
  end.

Fixpoint le_value (b : bytes) : Z :=
  match b with
  | [] => 0
  | x :: rest => Z_of_byte x + 256 * le_value rest
  end.

(** Signed 16-bit samples, two's complement, little endian. *)
Definition pcm16_encode (samples : list Z) : bytes :=
  flat_map (le_bytes 2) samples.

Definition signed16 (u : Z) : Z := if decide (u < 32768) then u else u - 65536.

Fixpoint pcm16_decode (b : bytes) : list Z :=
  match b with
  | lo :: hi :: rest => signed16 (le_value [lo; hi]) :: pcm16_decode rest
  | _ => []
  end.

Definition tag (s : string) : bytes := String.list_byte_of_string s.

(** A capture the container can hold: a rate whose byte rate fits 32 bits,
    16-bit samples, and a length field that fits 32 bits. *)
Definition valid_capture (sr : Z) (samples : list Z) : Prop :=
  0 ≤ sr < 2 ^ 31 ∧
  Forall (λ s, -32768 ≤ s < 32768) samples ∧
  36 + 2 * Z.of_nat (length samples) < 2 ^ 32.

(** Modelled from the spec: the encoder of [scipy.io.wavfile.write] is not
    part of the repository; the spec asks for "a standard uncompressed WAV
    byte stream at the given sample rate".  This is the canonical 44-byte
    RIFF/WAVE header for one channel of 16-bit PCM (the microphone's sample
    format) followed by the samples. *)
Definition wav_write (sr : Z) (samples : list Z) : string + bytes :=
  if decide (valid_capture sr samples) then
    let data := pcm16_encode samples in
    let nbytes := Z.of_nat (length data) in
    inr (tag "RIFF" ++ le_bytes 4 (36 + nbytes) ++ tag "WAVE" ++
         tag "fmt " ++ le_bytes 4 16 ++
         le_bytes 2 1 ++ le_bytes 2 1 ++
         le_bytes 4 sr ++ le_bytes 4 (sr * 2) ++
         le_bytes 2 2 ++ le_bytes 2 16 ++
         tag "data" ++ le_bytes 4 nbytes ++ data)%list
  else inl "Unsupported data".

(** Modelled from the spec: the read-back of the round-trip property, the
    inverse reading of the same header layout.  It yields the sample rate
    and the samples, or [None] when the bytes are not such a file. *)
Definition wav_read (b : bytes) : option (Z * list Z) :=
  let field off len := le_value (take len (drop off b)) in
  let tag_at off s := bool_decide (take 4 (drop off b) = tag s) in
  let data := drop 44 b in
  if tag_at 0%nat "RIFF" && tag_at 8%nat "WAVE" && tag_at 12%nat "fmt " &&
     bool_decide (field 16%nat 4%nat = 16) &&
     bool_decide (field 20%nat 2%nat = 1) &&
     bool_decide (field 22%nat 2%nat = 1) &&
     bool_decide (field 34%nat 2%nat = 16) &&
     tag_at 36%nat "data" &&
     bool_decide (field 40%nat 4%nat = Z.of_nat (length data))
  then Some (field 24%nat 4%nat, pcm16_decode data)
  else None.

(** ** Concrete environments

    A machine on which the disk stores what it is given and no file is
    unreadable, with a choice of clock, server and JSON decoder. *)

Definition demo_env_with (time : nat → Z) (srv : Request → post_outcome)
    (decode : bytes → option json) : Env (list Z) :=
  {| gettempdir := "/tmp";
     clock := time;
     wav_bytes := wav_write;
     disk := λ _ _, Stored;
     read_fault := λ _, None;
     server := srv;
     json_loads := decode;
     py_str := λ _, "" |}.

(** A clock that stands at one second for as long as the runs take, and
    one that has moved on by a second at every reading. *)
Definition fast_clock (n : nat) : Z := 1700000000.
Definition slow_clock (n : nat) : Z := 1700000000 + Z.of_nat n.

(** The server answers every upload with the bytes it received. *)
Definition echo_server (req : Request) : post_outcome :=
  match req_files req with
  | [part] => PostReturns (mkResponse 200 (part_data part))
  | _ => PostReturns (mkResponse 400 [])
  end.

Definition slow_server (req : Request) : post_outcome :=
  PostRaises (Timeout "Read timed out.").

Definition down_server (req : Request) : post_outcome :=
  PostRaises (ConnectionError "Connection refused").

Definition silent_server (req : Request) : post_outcome :=
  PostReturns (mkResponse 200 []).

(** The bytes of the JSON text with one member, message: overload. *)
Definition overload_body : bytes :=
  [Byte.x7b; Byte.x22; Byte.x6d; Byte.x65; Byte.x73; Byte.x73; Byte.x61; Byte.x67; Byte.x65; Byte.x22; Byte.x3a; Byte.x20; Byte.x22; Byte.x6f; Byte.x76; Byte.x65; Byte.x72; Byte.x6c; Byte.x6f; Byte.x61; Byte.x64; Byte.x22; Byte.x7d].

Definition overloaded_server (req : Request) : post_outcome :=
  PostReturns (mkResponse 500 overload_body).

Definition decode_overload (b : bytes) : option json :=
  if decide (b = overload_body)
  then Some (JObject [("message", JString "overload")])
  else None.

Definition no_json (b : bytes) : option json := None.

Definition demo_env : Env (list Z) := demo_env_with fast_clock echo_server no_json.

Definition demo_audio : option (Z * list Z) := Some (16000, [1; -2; 3]).
Definition other_audio : option (Z * list Z) := Some (16000, [7; 7]).

Definition empty_world : World := mkWorld ∅ 0 [] [].

(** The upload of [demo_audio] at second 1700000000. *)
Definition demo_wav : bytes :=
  match wav_write 16000 [1; -2; 3] with
  | inr b => b
  | inl _ => []
  end.

Definition demo_request : Request :=
  mkRequest API_URL
    [mkFilePart "file" "input_1700000000.wav" demo_wav "audio/wav"] 300.

(** ** Observing one run *)

Section Run.

Context {ndarray : Type} (env : Env ndarray).

(** What the handler returns, and the world it leaves. *)
Definition run_result (audio : option (Z * ndarray)) (w : World) :=
  fst (voice_chat env audio w).

Definition run_world (audio : option (Z * ndarray)) (w : World) : World :=
  snd (voice_chat env audio w).

(** The requests sent and the files written during the run, newest first:
    what the run added to the two logs. *)
Definition issued (audio : option (Z * ndarray)) (w : World) :=
  let w' := run_world audio w in
  take (length (posts w') - length (posts w)) (posts w').

Definition written (audio : option (Z * ndarray)) (w : World) :=
  let w' := run_world audio w in
  take (length (writes w') - length (writes w)) (writes w').

(** The two paths a run that starts in [w] can write to. *)
Definition input_path (w : World) : string :=
  os_path_join (gettempdir env) (input_filename (clock env (clock_reads w))).

Definition output_path (w : World) : string :=
  os_path_join (gettempdir env)
    (output_filename (clock env (S (clock_reads w)))).

End Run.

(** [needle] occurs in [hay]. *)
Definition contains (needle hay : string) : Prop :=
  ∃ before after, hay = before +:+ needle +:+ after.

(** The same, computed: Python's [needle in hay]. *)
Fixpoint occurs (needle hay : string) : bool :=
  String.prefix needle hay ||
  match hay with
  | EmptyString => false
  | String _ rest => occurs needle rest
  end.

(** ** The page

    The widgets the handlers touch, and the three event listeners wired at
    lines 603-625.  A widget that is only shown or hidden is its
    [visible] flag. *)

(** [gr.update(visible=...)] *)
Record Update := gr_update { visible : bool }.

(** Lines 480-484. *)
Definition recording_state (recording : bool) : Update * Update :=
  if recording then (gr_update true, gr_update false)
  else (gr_update false, gr_update true).

(** Lines 596-600. *)
Definition show_processing : Update := gr_update true.
Definition hide_processing : Update := gr_update false.

(** The double quote of the markup below. *)
Definition dq : string := String "034"%char EmptyString.

(** Lines 587-593. *)
Definition update_status (message : string) (is_error is_warning : bool)
  : string :=
  if is_error then
    "<div class=" +:+ dq +:+ "status-box status-error" +:+ dq +:+ ">"
      +:+ message +:+ "</div>"
  else if is_warning then
    "<div class=" +:+ dq +:+ "status-box status-warning" +:+ dq +:+ ">"
      +:+ message +:+ "</div>"
  else
    "<div class=" +:+ dq +:+ "status-box status-success" +:+ dq +:+ ">"
      +:+ message +:+ "</div>".

Record Page := mkPage {
  ready_indicator : bool;          (* gr.HTML, visible=True at line 523 *)
  recording_active : bool;         (* gr.HTML, visible=False at line 529 *)
  processing_indicator : bool;     (* gr.Group, visible=False at line 545 *)
  audio_output : option string;    (* gr.Audio(type="filepath") *)
  status_msg : string              (* gr.HTML *)
}.

(** The page as lines 487-584 build it. *)
Definition initial_page : Page :=
  mkPage true false false None
    ("<div class=" +:+ dq +:+ "status-box" +:+ dq
       +:+ ">Sistem siap menerima pesan suara</div>").

Inductive event {ndarray : Type} :=
| StartRecording
| StopRecording
| SubmitClick (audio_input : option (Z * ndarray)).
Arguments event : clear implicits.

Section Listeners.

Context {ndarray : Type} (env : Env ndarray).

(** [outputs=[recording_active, ready_indicator]] *)
Definition set_recording_outputs (u : Update * Update) (p : Page) : Page :=
  mkPage (visible (snd u)) (visible (fst u)) (processing_indicator p)
    (audio_output p) (status_msg p).

(** [outputs=[processing_indicator]] *)
Definition set_processing_output (u : Update) (p : Page) : Page :=
  mkPage (ready_indicator p) (recording_active p) (visible u)
    (audio_output p) (status_msg p).

(** Lines 603-606 and 609-612. *)
Definition on_start_recording (p : Page) : Page :=
  set_recording_outputs (recording_state true) p.

Definition on_stop_recording (p : Page) : Page :=
  set_recording_outputs (recording_state false) p.

(** The three links of the chain at lines 615-625.  The middle one runs the
    handler on the recording and puts its pair into
    [outputs=[audio_output, status_msg]]; if the handler raised, the
    outputs would stay as they are. *)
Definition click_show (s : Page * World) : Page * World :=
  (set_processing_output show_processing (fst s), snd s).

Definition click_voice_chat (audio_input : option (Z * ndarray))
    (s : Page * World) : Page * World :=
  let p := fst s in
  match voice_chat env audio_input (snd s) with
  | (Ret (path, msg), w') =>
      (mkPage (ready_indicator p) (recording_active p)
         (processing_indicator p) path msg, w')
  | (Raise _, w') => (p, w')
  end.

Definition click_hide (s : Page * World) : Page * World :=
  (set_processing_output hide_processing (fst s), snd s).

Definition submit_click (audio_input : option (Z * ndarray))
    (s : Page * World) : Page * World :=
  click_hide (click_voice_chat audio_input (click_show s)).

Definition handle (ev : event ndarray) (s : Page * World) : Page * World :=
  match ev with
  | StartRecording => (on_start_recording (fst s), snd s)
  | StopRecording => (on_stop_recording (fst s), snd s)
  | SubmitClick audio_input => submit_click audio_input s
  end.

(** The page and the world after a sequence of events. *)
Definition session (evs : list (event ndarray)) (s : Page * World)
  : Page * World :=
  foldl (λ s ev, handle ev s) s evs.

End Listeners.

Definition is_submit {ndarray} (ev : event ndarray) : Prop :=
  match ev with
  | SubmitClick _ => True
  | _ => False
  end.

(** The number of clicks on the submit button made with a recording. *)
Fixpoint recordings_submitted {ndarray} (evs : list (event ndarray)) : nat :=
  match evs with
  | [] => 0
  | SubmitClick (Some _) :: rest => S (recordings_submitted rest)
  | _ :: rest => recordings_submitted rest
  end.

(** ** More concrete environments *)

Definition lab_env (dsk : string → bytes → disk_outcome)
    (unreadable : string → option string) (srv : Request → post_outcome)
  : Env (list Z) :=
  {| gettempdir := "/tmp";
     clock := fast_clock;
     wav_bytes := wav_write;
     disk := dsk;
     read_fault := unreadable;
     server := srv;
     json_loads := no_json;
     py_str := λ _, "" |}.

Definition good_disk (path : string) (data : bytes) : disk_outcome := Stored.
Definition lossy_disk (path : string) (data : bytes) : disk_outcome := Vanished.
Definition locked_disk (path : string) (data : bytes) : disk_outcome :=
  Refused "Permission denied".

(** A disk with room for the upload but not for the reply. *)
Definition full_disk (path : string) (data : bytes) : disk_outcome :=
  if String.prefix "/tmp/input_" path then Stored
  else Refused "No space left on device".

Definition readable (path : string) : option string := None.
Definition locked_files (path : string) : option string :=
  Some "Permission denied".

Definition broken_server (req : Request) : post_outcome :=
  PostRaises (OtherException "Invalid URL").

(** A server that cannot be reached in time. *)
Definition stalled_server (req : Request) : post_outcome :=
  PostRaises (ConnectTimeout "Connection to localhost timed out.").

(** A world in which the temporary directory already holds a file. *)
Definition busy_world : World :=
  mkWorld {[ "/tmp/notes.txt" := [Byte.x68; Byte.x69] ]} 0 [] [].

(** * Properties *)

Lemma take_new0 {A} (l : list A) : take (length l - length l) l = [].
Proof. by rewrite Nat.sub_diag. Qed.

Lemma take_new1 {A} (x : A) (l : list A) :
  take (length (x :: l) - length l) (x :: l) = [x].
Proof.
  replace (length (x :: l) - length l)%nat with 1%nat by (simpl; lia).
  reflexivity.
Qed.

Lemma take_new2 {A} (x y : A) (l : list A) :
  take (length (x :: y :: l) - length l) (x :: y :: l) = [x; y].
Proof.
  replace (length (x :: y :: l) - length l)%nat with 2%nat by (simpl; lia).
  reflexivity.
Qed.

Lemma exists_Some {A} (x : A) : bool_decide (is_Some (Some x)) = true.
Proof. reflexivity. Qed.

Lemma exists_None {A} : bool_decide (is_Some (@None A)) = false.
Proof. reflexivity. Qed.

Lemma size_nonempty {A} (x : A) (l : list A) :
  bool_decide (Z.of_nat (length (x :: l)) = 0) = false.
Proof. apply bool_decide_eq_false. simpl. lia. Qed.

Lemma size_empty {A} : bool_decide (Z.of_nat (length (@nil A)) = 0) = true.
Proof. reflexivity. Qed.

(** Symbolic execution of one run: unfold the handler, then split on what
    the environment answers, in the order the handler asks. *)
Ltac unfold_handler H :=
  unfold voice_chat, error_detail, attempt in H;
  unfold wavfile_write, response_json, json_get in H;
  unfold try_except, bind, ret, raise, time_time, write_file, path_exists,
    path_getsize, open_rb, requests_post in H.

Ltac run_step H :=
  repeat
    (progress
       (cbn [fst snd files clock_reads writes posts negb default
             from_option id] in H;
        rewrite ?lookup_insert_eq, ?lookup_delete_eq, ?exists_Some,
          ?exists_None, ?size_nonempty, ?size_empty in H)).

Ltac case_oracle H :=
  match type of H with
  | context [match ?x with _ => _ end] =>
      lazymatch x with
      | wav_bytes _ _ _ => idtac
      | disk _ _ _ => idtac
      | read_fault _ _ => idtac
      | server _ _ => idtac
      | json_loads _ _ => idtac
      | dict_get _ _ => idtac
      | content _ => idtac
      | decide _ => idtac
      | _ => is_var x
      end;
      destruct x eqn:?
  end.

Ltac run_cases H :=
  unfold_handler H; run_step H; repeat (case_oracle H; run_step H).

(** All execution paths of [voice_chat env audio w], each with the result
    and the final world substituted in the goal and the hypotheses. *)
Ltac all_runs env audio w :=
  let res := fresh "res" in
  let w' := fresh "w'" in
  let Hrun := fresh "Hrun" in
  unfold issued, written, run_result, run_world in *;
  destruct (voice_chat env audio w) as [res w'] eqn:Hrun;
  cbn [fst snd] in *;
  destruct audio as [[? ?]|];
  [run_cases Hrun | unfold voice_chat, ret in Hrun];
  simplify_eq;
  cbn [files clock_reads writes posts] in *;
  rewrite ?take_new0, ?take_new1, ?take_new2 in *.

(** *** File names *)

Lemma string_length_app (s t : string) :
  String.length (s +:+ t) = (String.length s + String.length t)%nat.
Proof. induction s as [|c s IH]; simpl; [done | by rewrite IH]. Qed.

Lemma string_app_inj_r (s1 s2 t : string) : s1 +:+ t = s2 +:+ t → s1 = s2.
Proof.
  revert s2. induction s1 as [|c s1 IH]; intros [|c' s2] H.
  - done.
  - apply (f_equal String.length) in H.
    rewrite !string_length_app in H. simpl in H. lia.
  - apply (f_equal String.length) in H.
    rewrite !string_length_app in H. simpl in H. lia.
  - change (String c (s1 +:+ t) = String c' (s2 +:+ t)) in H.
    injection H as -> H. f_equal. by apply IH.
Qed.

(** The timestamp can be read off the name. *)
Lemma input_filename_inj (t1 t2 : Z) :
  input_filename t1 = input_filename t2 → t1 = t2.
Proof.
  unfold input_filename. intros H.
  apply (inj (String.app "input_")) in H.
  apply string_app_inj_r in H. by apply (inj pretty) in H.
Qed.

Lemma output_filename_inj (t1 t2 : Z) :
  output_filename t1 = output_filename t2 → t1 = t2.
Proof.
  unfold output_filename. intros H.
  apply (inj (String.app "tts_output_")) in H.
  apply string_app_inj_r in H. by apply (inj pretty) in H.
Qed.

Lemma os_path_join_relative (d name : string) :
  String.prefix "/" name = false →
  ∃ sep, os_path_join d name = d +:+ sep +:+ name ∧
         ∀ name', String.prefix "/" name' = false →
                  os_path_join d name' = d +:+ sep +:+ name'.
Proof.
  intros Hrel. unfold os_path_join. rewrite Hrel.
  destruct (bool_decide (d = "") || ends_with_slash d).
  - exists "". split; [done|]. by intros name' ->.
  - exists "/". split; [done|]. by intros name' ->.
Qed.

Lemma os_path_join_inj (d a b : string) :
  String.prefix "/" a = false → String.prefix "/" b = false →
  os_path_join d a = os_path_join d b → a = b.
Proof.
  intros Ha Hb. destruct (os_path_join_relative d a Ha) as (sep & -> & Hsep).
  rewrite (Hsep b Hb). intros H.
  by do 2 apply (inj (String.app _)) in H.
Qed.

Lemma input_path_inj {ndarray} (env : Env ndarray) (w1 w2 : World) :
  input_path env w1 = input_path env w2 →
  clock env (clock_reads w1) = clock env (clock_reads w2).
Proof.
  intros H. apply os_path_join_inj in H; [|done..].
  by apply input_filename_inj.
Qed.

Lemma output_path_inj {ndarray} (env : Env ndarray) (w1 w2 : World) :
  output_path env w1 = output_path env w2 →
  clock env (S (clock_reads w1)) = clock env (S (clock_reads w2)).
Proof.
  intros H. apply os_path_join_inj in H; [|done..].
  by apply output_filename_inj.
Qed.

(** An input file and an output file never share a path. *)
Lemma input_output_distinct {ndarray} (env : Env ndarray) (w1 w2 : World) :
  input_path env w1 ≠ output_path env w2.
Proof.
  intros H. apply os_path_join_inj in H; [|done..]. discriminate H.
Qed.

Section Claims.

Context {ndarray : Type} (env : Env ndarray).

(** C10. Without a recording the handler answers at once with a warning:
    the world is unchanged, so no temporary file was written and no
    request was sent. *)
Theorem voice_chat_without_audio (w : World) :
  voice_chat env None w = (Ret (None, "⚠️ Rekaman suara diperlukan"), w) ∧
  written env None w = [] ∧ issued env None w = [].
Proof.
  unfold written, issued, run_world. simpl.
  by rewrite !Nat.sub_diag.
Qed.

(** C2. The handler never raises: whatever the recording, the disk and the
    server do, it returns a pair (path, message).  The path is [None] on
    every path of execution but one, the one on which the server answered
    200 with a non-empty body and that body was stored. *)
Theorem voice_chat_never_raises (audio : option (Z * ndarray)) (w : World) :
  ∃ path msg,
    run_result env audio w = Ret (path, msg) ∧
    (path = None ∨
     ∃ req r input,
       issued env audio w = [(req, PostReturns r)] ∧
       status_code r = 200 ∧ content r ≠ [] ∧
       written env audio w = [(output_path env w, content r, Stored); input] ∧
       path = Some (output_path env w)).
Proof.
  all_runs env audio w; do 2 eexists; (split; [reflexivity|]);
    try (left; reflexivity).
  all: right; do 3 eexists; unfold output_path;
    match goal with H : content _ = _ |- _ => rewrite H end;
    repeat split; eauto; done.
Qed.

(** C4. A timeout of the POST, of whatever kind, is reported as (None,
    server too slow); the request that timed out is the only one the run
    sent. *)
Theorem voice_chat_timeout (audio : option (Z * ndarray)) (w : World)
    (req : Request) (e : exn) :
  (req, PostRaises e) ∈ issued env audio w →
  is_timeout e = true →
  run_result env audio w =
    Ret (None, "🕒 Waktu habis. Server terlalu lama merespons.") ∧
  issued env audio w = [(req, PostRaises e)].
Proof.
  intros Hin Htimeout. all_runs env audio w.
  all: first [ by apply elem_of_nil in Hin
             | apply list_elem_of_singleton in Hin; by simplify_eq ].
Qed.

(** C5, as the handler has it.  A connection failure of the POST that is
    not also a timeout is reported as (None, message), and the message
    names the server the endpoint lives on; the failed request is the only
    one the run sent. *)
Theorem voice_chat_unreachable (audio : option (Z * ndarray)) (w : World)
    (req : Request) (e : exn) :
  (req, PostRaises e) ∈ issued env audio w →
  is_connection_error e = true →
  is_timeout e = false →
  ∃ msg origin,
    run_result env audio w = Ret (None, msg) ∧
    API_URL = origin +:+ "/voice-chat" ∧
    contains origin msg ∧
    issued env audio w = [(req, PostRaises e)].
Proof.
  intros Hin Hconnection Htimeout. all_runs env audio w.
  all: first [ by apply elem_of_nil in Hin
             | apply list_elem_of_singleton in Hin; simplify_eq ].
  all: try done.
  all: eexists _, "http://localhost:8000"; repeat split; try reflexivity.
  all: by exists "🔌 Koneksi ke server gagal. Pastikan server aktif di ", "".
Qed.

(** C6. A 200 reply with an empty body is reported as (None, empty
    response), and no output file is written: the only file the run wrote
    is the input file, and every other path is as it was. *)
Theorem voice_chat_empty_reply (audio : option (Z * ndarray)) (w : World)
    (req : Request) (r : Response) :
  (req, PostReturns r) ∈ issued env audio w →
  status_code r = 200 →
  content r = [] →
  run_result env audio w =
    Ret (None, "⚠️ Server mengembalikan respons kosong") ∧
  (∃ wav o, written env audio w = [(input_path env w, wav, o)]) ∧
  (∀ p, p ≠ input_path env w →
        files (run_world env audio w) !! p = files w !! p).
Proof.
  intros Hin H200 Hempty. unfold input_path. all_runs env audio w.
  all: first [ by apply elem_of_nil in Hin
             | apply list_elem_of_singleton in Hin; simplify_eq ].
  all: try congruence.
  all: repeat split; eauto;
    intros p Hp; by rewrite lookup_insert_ne.
Qed.

(** C8. A run that returns a reply file has sent exactly one POST: to
    [API_URL], with the single multipart field [file], whose filename is
    [input_<t>.wav] for the second [t] read from the clock, whose content
    type is [audio/wav], and with a timeout of 300 seconds. *)
Theorem voice_chat_single_post (audio : option (Z * ndarray)) (w : World)
    (path msg : string) :
  run_result env audio w = Ret (Some path, msg) →
  ∃ t data outcome,
    t = clock env (clock_reads w) ∧
    issued env audio w =
      [(mkRequest API_URL
          [mkFilePart "file" ("input_" +:+ pretty t +:+ ".wav") data
             "audio/wav"]
          300,
        outcome)].
Proof.
  intros Hres. all_runs env audio w.
  all: by do 3 eexists.
Qed.


(** C7. A reply with a status other than 200 is reported as (None, server
    error: detail).  When the body decodes to a JSON object with a
    [message] member, the detail is that member's value; when the body is
    empty, does not decode, decodes to something that is not an object, or
    has no [message] member, the detail is the bare status code. *)
Theorem voice_chat_server_error (audio : option (Z * ndarray)) (w : World)
    (req : Request) (r : Response) :
  (req, PostReturns r) ∈ issued env audio w →
  status_code r ≠ 200 →
  ∃ detail,
    run_result env audio w = Ret (None, "⚠️ Error Server: " +:+ detail) ∧
    (∀ items v,
       content r ≠ [] →
       json_loads env (content r) = Some (JObject items) →
       dict_get "message" items = Some v →
       detail = fstr env v ∧ (∀ s, v = JString s → detail = s)) ∧
    (content r = [] ∨
     json_loads env (content r) = None ∨
     (∃ j, json_loads env (content r) = Some j ∧ ∀ items, j ≠ JObject items) ∨
     (∃ items, json_loads env (content r) = Some (JObject items) ∧
               dict_get "message" items = None) →
     detail = "Kode status: " +:+ pretty (status_code r)).
Proof.
  intros Hin Hstatus. all_runs env audio w.
  all: first [ by apply elem_of_nil in Hin
             | apply list_elem_of_singleton in Hin; simplify_eq ].
  all: try congruence.
  all: eexists; split; [reflexivity|]; cbn [fstr].
  all: repeat match goal with H : content _ = _ |- _ => rewrite H; clear H end.
  all: split; [intros ? ? ? ? ?; split; [|intros ? ->; cbn [fstr]]
              |intros [?|[?|[(? & ? & Hj)|(? & ? & ?)]]]];
    simplify_eq; try congruence; try done.
  all: by match goal with H : dict_get _ _ = _ |- _ => rewrite H end.
Qed.

(** *** Two submissions *)

(** The path a run returns is its output path. *)
Lemma returned_path (audio : option (Z * ndarray)) (w : World)
    (path msg : string) :
  run_result env audio w = Ret (Some path, msg) → path = output_path env w.
Proof. intros Hres. by all_runs env audio w. Qed.

(** A run leaves every file but its input and its output file alone. *)
Lemma files_frame (audio : option (Z * ndarray)) (w : World) (p : string) :
  p ≠ input_path env w → p ≠ output_path env w →
  files (run_world env audio w) !! p = files w !! p.
Proof.
  unfold input_path, output_path. intros Hin Hout. all_runs env audio w.
  all: repeat first [ rewrite lookup_insert_ne; [|congruence]
                    | rewrite lookup_delete_ne; [|congruence] ];
    reflexivity.
Qed.

(** Lines 35-36 and 89-90.  The names carry the clock reading in whole
    seconds.  When two submissions read different seconds for their output
    names, the returned paths differ and the first reply file is untouched
    by the second submission; likewise for the input files when the
    readings for the input names differ. *)
Theorem distinct_seconds_distinct_files (a1 a2 : option (Z * ndarray))
    (w : World) :
  let w1 := run_world env a1 w in
  let w2 := run_world env a2 w1 in
  (clock env (S (clock_reads w)) ≠ clock env (S (clock_reads w1)) →
   ∀ p1 m1 p2 m2,
     run_result env a1 w = Ret (Some p1, m1) →
     run_result env a2 w1 = Ret (Some p2, m2) →
     p1 ≠ p2 ∧ files w2 !! p1 = files w1 !! p1) ∧
  (clock env (clock_reads w) ≠ clock env (clock_reads w1) →
   input_path env w ≠ input_path env w1 ∧
   files w2 !! input_path env w = files w1 !! input_path env w).
Proof.
  intros w1 w2. split.
  - intros Hclock p1 m1 p2 m2 H1 H2.
    apply returned_path in H1 as ->. apply returned_path in H2 as ->.
    assert (output_path env w ≠ output_path env w1) as Hne
      by (intros H; by apply output_path_inj in H).
    split; [done|]. apply files_frame; [|done].
    intros H. by apply symmetry, input_output_distinct in H.
  - intros Hclock.
    assert (input_path env w ≠ input_path env w1) as Hne
      by (intros H; by apply input_path_inj in H).
    split; [done|]. apply files_frame; [done|].
    apply input_output_distinct.
Qed.

End Claims.

(** *** The WAV round trip *)

Lemma Z_of_byte_of_Z (z : Z) : Z_of_byte (byte_of_Z z) = z mod 256.
Proof.
  unfold Z_of_byte, byte_of_Z.
  assert (0 ≤ z mod 256 < 256) as Hrange by (apply Z.mod_pos_bound; lia).
  destruct (Byte.of_N (Z.to_N (z mod 256))) as [b|] eqn:Hb; simpl.
  - apply Byte.to_of_N in Hb. rewrite Hb. lia.
  - apply Byte.of_N_None_iff in Hb. lia.
Qed.

Lemma le_value_le_bytes (n : nat) (z : Z) :
  le_value (le_bytes n z) = z mod 256 ^ Z.of_nat n.
Proof.
  revert z. induction n as [|n IH]; intros z.
  - simpl. by rewrite Z.mod_1_r.
  - cbn [le_bytes le_value]. rewrite Z_of_byte_of_Z, IH.
    rewrite Nat2Z.inj_succ, Z.pow_succ_r by lia.
    rewrite Z.rem_mul_r by lia. reflexivity.
Qed.

Lemma le_value_le_bytes_small (n : nat) (z : Z) :
  0 ≤ z < 256 ^ Z.of_nat n → le_value (le_bytes n z) = z.
Proof. intros Hz. rewrite le_value_le_bytes. by apply Z.mod_small. Qed.

Lemma signed16_wrap (s : Z) :
  -32768 ≤ s < 32768 → signed16 (s mod 65536) = s.
Proof.
  intros Hs. unfold signed16.
  destruct (decide (0 ≤ s)).
  - rewrite Z.mod_small by lia. case_decide; lia.
  - replace (s mod 65536) with (s + 65536).
    + case_decide; lia.
    + apply Z.mod_unique with (q := -1); lia.
Qed.

Lemma pcm16_round_trip (samples : list Z) :
  Forall (λ s, -32768 ≤ s < 32768) samples →
  pcm16_decode (pcm16_encode samples) = samples.
Proof.
  induction 1 as [|s samples Hs _ IH]; [done|].
  change (pcm16_encode (s :: samples))
    with (byte_of_Z s :: byte_of_Z (s / 256) :: pcm16_encode samples).
  cbn [pcm16_decode]. rewrite IH. f_equal.
  change [byte_of_Z s; byte_of_Z (s / 256)] with (le_bytes 2 s).
  rewrite le_value_le_bytes. by apply signed16_wrap.
Qed.

Lemma length_pcm16_encode (samples : list Z) :
  length (pcm16_encode samples) = (2 * length samples)%nat.
Proof.
  induction samples as [|s samples IH]; [done|].
  change (pcm16_encode (s :: samples))
    with (byte_of_Z s :: byte_of_Z (s / 256) :: pcm16_encode samples).
  simpl. rewrite IH. lia.
Qed.

Ltac eval_tags :=
  repeat match goal with
         | |- context [tag ?s] =>
             let t := eval vm_compute in (tag s) in change (tag s) with t
         end.

Ltac fold_fields :=
  repeat match goal with
         | |- context [le_value [byte_of_Z ?x; byte_of_Z (?x / 256);
                                 byte_of_Z (?x / 256 / 256);
                                 byte_of_Z (?x / 256 / 256 / 256)]] =>
             change [byte_of_Z x; byte_of_Z (x / 256);
                     byte_of_Z (x / 256 / 256);
                     byte_of_Z (x / 256 / 256 / 256)]
               with (le_bytes 4 x)
         | |- context [le_value [byte_of_Z ?x; byte_of_Z (?x / 256)]] =>
             change [byte_of_Z x; byte_of_Z (x / 256)] with (le_bytes 2 x)
         end.

Lemma wav_read_write (sr : Z) (samples : list Z) :
  valid_capture sr samples →
  ∃ b, wav_write sr samples = inr b ∧ wav_read b = Some (sr, samples).
Proof.
  intros Hvalid. unfold wav_write. rewrite decide_True by done.
  destruct Hvalid as (Hsr & Hsamples & Hsize).
  eexists. split; [reflexivity|].
  pose proof (length_pcm16_encode samples) as Hlen.
  pose proof (pcm16_round_trip samples Hsamples) as Hdata.
  set (data := pcm16_encode samples) in *.
  unfold wav_read. eval_tags.
  cbn [app le_bytes firstn skipn]. rewrite take_0, !drop_0. fold_fields.
  change (2 ^ 31) with 2147483648 in Hsr.
  change (2 ^ 32) with 4294967296 in Hsize.
  rewrite !le_value_le_bytes_small
    by (change (256 ^ Z.of_nat 4) with 4294967296;
        change (256 ^ Z.of_nat 2) with 65536; lia).
  rewrite !bool_decide_eq_true_2 by reflexivity.
  simpl. by rewrite Hdata.
Qed.

(** C9. Writing a valid capture with [scipy.io.wavfile.write] to a disk that
    stores it, and reading the file back, gives the same sample rate and
    the same number of samples. *)
Theorem wav_round_trip (env : Env (list Z)) (path : string) (sr : Z)
    (samples : list Z) (w : World) :
  wav_bytes env = wav_write →
  (∀ b, disk env path b = Stored) →
  valid_capture sr samples →
  ∃ b samples',
    files (snd (wavfile_write env path sr samples w)) !! path = Some b ∧
    wav_read b = Some (sr, samples') ∧
    length samples' = length samples.
Proof.
  intros Hencoder Hdisk Hvalid.
  destruct (wav_read_write sr samples Hvalid) as (b & Hwrite & Hread).
  exists b, samples. unfold wavfile_write, write_file.
  rewrite Hencoder, Hwrite, Hdisk. cbn [snd files].
  by rewrite lookup_insert_eq.
Qed.

(** * The properties at work on concrete runs *)


(** Two submissions within the same second get the same output name. *)
Lemma rapid_submissions_collide :
  ¬ (∀ (env : Env (list Z)) (a1 a2 : option (Z * list Z)) (w : World)
       (p1 m1 p2 m2 : string),
       run_result env a1 w = Ret (Some p1, m1) →
       run_result env a2 (run_world env a1 w) = Ret (Some p2, m2) →
       p1 ≠ p2).
Proof.
  intros Hdistinct.
  apply (Hdistinct demo_env demo_audio other_audio empty_world
           "/tmp/tts_output_1700000000.wav" "✅ Jawaban siap diputar"
           "/tmp/tts_output_1700000000.wav" "✅ Jawaban siap diputar");
    vm_compute; reflexivity.
Qed.

(** C3.  Where the handler falls short of the unique names its comments
    promise (lines 34 and 89).  Two recordings submitted within the second
    1700000000 are saved under the same input name and answered under the
    same output name, and the second reply replaces the first on the
    disk. *)
Theorem rapid_submissions_same_file :
  let w1 := run_world demo_env demo_audio empty_world in
  let w2 := run_world demo_env other_audio w1 in
  run_result demo_env demo_audio empty_world
    = Ret (Some "/tmp/tts_output_1700000000.wav", "✅ Jawaban siap diputar") ∧
  run_result demo_env other_audio w1
    = Ret (Some "/tmp/tts_output_1700000000.wav", "✅ Jawaban siap diputar") ∧
  input_path demo_env empty_world = input_path demo_env w1 ∧
  files w1 !! "/tmp/tts_output_1700000000.wav"
    ≠ files w2 !! "/tmp/tts_output_1700000000.wav" ∧
  files w1 !! input_path demo_env empty_world
    ≠ files w2 !! input_path demo_env empty_world.
Proof.
  cbn zeta. repeat split; try (vm_compute; reflexivity).
  all: vm_compute; discriminate.
Qed.

(** With a clock that has moved on between the submissions, the files of
    the first are kept. *)
Lemma distinct_seconds_distinct_files_witness :
  let env := demo_env_with slow_clock echo_server no_json in
  let w1 := run_world env demo_audio empty_world in
  let w2 := run_world env other_audio w1 in
  ("/tmp/tts_output_1700000001.wav" ≠ "/tmp/tts_output_1700000003.wav" ∧
   files w2 !! "/tmp/tts_output_1700000001.wav"
     = files w1 !! "/tmp/tts_output_1700000001.wav") ∧
  (input_path env empty_world ≠ input_path env w1 ∧
   files w2 !! input_path env empty_world
     = files w1 !! input_path env empty_world).
Proof.
  intros env w1 w2.
  destruct (distinct_seconds_distinct_files env demo_audio other_audio
              empty_world) as [Houtput Hinput].
  split.
  - apply (Houtput ltac:(vm_compute; lia)
             "/tmp/tts_output_1700000001.wav" "✅ Jawaban siap diputar"
             "/tmp/tts_output_1700000003.wav" "✅ Jawaban siap diputar");
      vm_compute; reflexivity.
  - apply Hinput. vm_compute. lia.
Defined.

(** A server that does not answer in time. *)
Lemma voice_chat_timeout_witness :
  let env := demo_env_with fast_clock slow_server no_json in
  run_result env demo_audio empty_world =
    Ret (None, "🕒 Waktu habis. Server terlalu lama merespons.") ∧
  issued env demo_audio empty_world
    = [(demo_request, PostRaises (Timeout "Read timed out."))].
Proof.
  intros env.
  apply (voice_chat_timeout env demo_audio empty_world).
  - vm_compute. apply list_elem_of_singleton. reflexivity.
  - reflexivity.
Defined.

(** A server that is not running. *)
Lemma voice_chat_unreachable_witness :
  let env := demo_env_with fast_clock down_server no_json in
  ∃ msg origin,
    run_result env demo_audio empty_world = Ret (None, msg) ∧
    API_URL = origin +:+ "/voice-chat" ∧
    contains origin msg ∧
    issued env demo_audio empty_world
      = [(demo_request, PostRaises (ConnectionError "Connection refused"))].
Proof.
  intros env.
  apply (voice_chat_unreachable env demo_audio empty_world).
  - vm_compute. apply list_elem_of_singleton. reflexivity.
  - reflexivity.
  - reflexivity.
Defined.

Lemma prefix_app (s t : string) : String.prefix s (s +:+ t) = true.
Proof.
  induction s as [|c s IH]; [by destruct t|].
  change (String c s +:+ t) with (String c (s +:+ t)). simpl.
  by destruct (ascii_dec c c).
Qed.

Lemma occurs_contains (needle hay : string) :
  contains needle hay → occurs needle hay = true.
Proof.
  intros (before & after & ->).
  induction before as [|c before IH].
  - change ("" +:+ needle +:+ after) with (needle +:+ after).
    pose proof (prefix_app needle after) as Hprefix.
    destruct (needle +:+ after); cbn [occurs]; by rewrite Hprefix.
  - change (String c before +:+ needle +:+ after)
      with (String c (before +:+ needle +:+ after)).
    cbn [occurs]. rewrite IH. apply orb_true_r.
Qed.

(** A connection that times out while it is being set up is a connection
    failure, and the handler answers it with the timeout text, which names
    no endpoint. *)
Lemma connect_timeout_names_no_endpoint :
  ¬ (∀ (env : Env (list Z)) (audio : option (Z * list Z)) (w : World)
       (req : Request) (e : exn),
       (req, PostRaises e) ∈ issued env audio w →
       is_connection_error e = true →
       ∃ msg origin,
         run_result env audio w = Ret (None, msg) ∧
         API_URL = origin +:+ "/voice-chat" ∧
         contains origin msg).
Proof.
  intros Hclaim.
  destruct (Hclaim (demo_env_with fast_clock stalled_server no_json)
              demo_audio empty_world demo_request
              (ConnectTimeout "Connection to localhost timed out."))
    as (msg & origin & Hres & Hurl & Hnamed).
  - vm_compute. apply list_elem_of_singleton. reflexivity.
  - reflexivity.
  - change API_URL with ("http://localhost:8000" +:+ "/voice-chat") in Hurl.
    apply string_app_inj_r in Hurl. subst origin.
    vm_compute in Hres. injection Hres as <-.
    apply occurs_contains in Hnamed. vm_compute in Hnamed. discriminate.
Qed.

(** A server that answers 200 with nothing. *)
Lemma voice_chat_empty_reply_witness :
  let env := demo_env_with fast_clock silent_server no_json in
  run_result env demo_audio empty_world =
    Ret (None, "⚠️ Server mengembalikan respons kosong") ∧
  (∃ wav o, written env demo_audio empty_world
              = [(input_path env empty_world, wav, o)]) ∧
  (∀ p, p ≠ input_path env empty_world →
        files (run_world env demo_audio empty_world) !! p
          = files empty_world !! p).
Proof.
  intros env.
  apply (voice_chat_empty_reply env demo_audio empty_world demo_request
           (mkResponse 200 [])).
  - vm_compute. apply list_elem_of_singleton. reflexivity.
  - reflexivity.
  - reflexivity.
Defined.

(** A server that answers 500 with a message. *)
Lemma voice_chat_server_error_witness :
  let env := demo_env_with fast_clock overloaded_server decode_overload in
  run_result env demo_audio empty_world
    = Ret (None, "⚠️ Error Server: overload") ∧
  contains "overload" "⚠️ Error Server: overload".
Proof.
  intros env.
  destruct (voice_chat_server_error env demo_audio empty_world demo_request
              (mkResponse 500 overload_body))
    as (detail & Hres & Hmessage & _).
  - vm_compute. apply list_elem_of_singleton. reflexivity.
  - vm_compute. lia.
  - destruct (Hmessage [("message", JString "overload")] (JString "overload"))
      as [_ Hstring].
    + vm_compute. discriminate.
    + vm_compute. reflexivity.
    + vm_compute. reflexivity.
    + rewrite (Hstring "overload" eq_refl) in Hres.
      split; [exact Hres|]. by exists "⚠️ Error Server: ", "".
Defined.

(** The one request of a successful run. *)
Lemma voice_chat_single_post_witness :
  ∃ t data outcome,
    t = 1700000000 ∧
    issued demo_env demo_audio empty_world =
      [(mkRequest API_URL
          [mkFilePart "file" ("input_" +:+ pretty t +:+ ".wav") data
             "audio/wav"]
          300,
        outcome)].
Proof.
  apply (voice_chat_single_post demo_env demo_audio empty_world
           "/tmp/tts_output_1700000000.wav" "✅ Jawaban siap diputar").
  vm_compute. reflexivity.
Defined.

(** Three samples at 16 kHz, written and read back. *)
Lemma wav_round_trip_witness :
  ∃ b samples',
    files (snd (wavfile_write demo_env "/tmp/input_1700000000.wav" 16000
                  [1; -2; 3] empty_world))
      !! "/tmp/input_1700000000.wav" = Some b ∧
    wav_read b = Some (16000, samples') ∧
    length samples' = 3%nat.
Proof.
  apply (wav_round_trip demo_env "/tmp/input_1700000000.wav" 16000
           [1; -2; 3] empty_world).
  - reflexivity.
  - intros b. reflexivity.
  - unfold valid_capture. repeat split; try lia.
    repeat constructor; lia.
Defined.

(** * Further properties of the handler *)

(** As [all_runs], for a recording that is there. *)
Ltac some_runs env sr data w :=
  let res := fresh "res" in
  let w' := fresh "w'" in
  let Hrun := fresh "Hrun" in
  unfold issued, written, run_result, run_world in *;
  destruct (voice_chat env (Some (sr, data)) w) as [res w'] eqn:Hrun;
  cbn [fst snd] in *;
  run_cases Hrun;
  simplify_eq;
  cbn [files clock_reads writes posts] in *;
  rewrite ?take_new0, ?take_new1, ?take_new2 in *.

Ltac only_entry H :=
  first [ by apply elem_of_nil in H
        | apply list_elem_of_singleton in H; simplify_eq ].

Section Handler_more.

Context {ndarray : Type} (env : Env ndarray).

(** Lines 70-73.  A POST that raises anything but a timeout or a connection
    error is reported with the text of the exception; the request is not
    repeated and no reply file is written. *)
Theorem voice_chat_transport_error (audio : option (Z * ndarray)) (w : World)
    (req : Request) (m : string) :
  (req, PostRaises (OtherException m)) ∈ issued env audio w →
  run_result env audio w = Ret (None, "🔴 Kesalahan: " +:+ m) ∧
  issued env audio w = [(req, PostRaises (OtherException m))] ∧
  ∃ wav o, written env audio w = [(input_path env w, wav, o)].
Proof.
  intros Hin. unfold input_path. all_runs env audio w; only_entry Hin.
  all: by eauto.
Qed.

(** Lines 50 and 70-73.  When the saved recording cannot be opened for the
    upload, the failure is reported in the same way and nothing is sent. *)
Theorem voice_chat_unreadable_input (sr : Z) (data : ndarray) (w : World)
    (wav : bytes) (m : string) :
  wav_bytes env sr data = inr wav →
  disk env (input_path env w) wav = Stored ∨
    disk env (input_path env w) wav = Truncated →
  read_fault env (input_path env w) = Some m →
  run_result env (Some (sr, data)) w = Ret (None, "🔴 Kesalahan: " +:+ m) ∧
  issued env (Some (sr, data)) w = [].
Proof.
  unfold input_path. intros Hwav Hdisk Hread.
  some_runs env sr data w; destruct Hdisk;
    repeat split; cbn [str_exn]; congruence.
Qed.


(** Lines 41-43.  When the input file is not there after the write, the
    handler gives up before the upload. *)
Theorem voice_chat_input_vanished (sr : Z) (data : ndarray) (w : World)
    (wav : bytes) :
  wav_bytes env sr data = inr wav →
  disk env (input_path env w) wav = Vanished →
  run_result env (Some (sr, data)) w
    = Ret (None, "⚠️ Gagal menyimpan rekaman") ∧
  issued env (Some (sr, data)) w = [].
Proof.
  unfold input_path. intros Hwav Hdisk.
  some_runs env sr data w; repeat split; congruence.
Qed.

(** Lines 36-56.  A request is only ever sent for a file that is on the
    disk, and it carries that file: the upload is the content of the input
    file, which is still there, unchanged, when the run is over. *)
Theorem voice_chat_uploads_saved_file (audio : option (Z * ndarray))
    (w : World) (req : Request) (o : post_outcome) :
  (req, o) ∈ issued env audio w →
  ∃ data,
    files (run_world env audio w) !! input_path env w = Some data ∧
    req = mkRequest API_URL
            [mkFilePart "file" (input_filename (clock env (clock_reads w)))
               data "audio/wav"]
            REQUEST_TIMEOUT.
Proof.
  intros Hin.
  pose proof (input_output_distinct env w w) as Hne.
  unfold input_path, output_path in *.
  all_runs env audio w; only_entry Hin.
  all: eexists; split; [|reflexivity].
  all: rewrite ?lookup_insert_ne, ?lookup_delete_ne by congruence.
  all: by rewrite lookup_insert_eq.
Qed.

(** Lines 92-106.  A reply that could not be kept is never handed to the
    player: when the write raises, the text of the exception is reported;
    when the file is missing or empty afterwards, the reply is reported as
    empty or invalid. *)
Theorem voice_chat_reply_not_persisted (audio : option (Z * ndarray))
    (w : World) (req : Request) (r : Response) (path : string)
    (o : disk_outcome) (earlier : list (string * bytes * disk_outcome)) :
  (req, PostReturns r) ∈ issued env audio w →
  status_code r = 200 →
  content r ≠ [] →
  writes (run_world env audio w) = (path, content r, o) :: earlier →
  o ≠ Stored →
  ∃ msg,
    run_result env audio w = Ret (None, msg) ∧
    (∀ m, o = Refused m ∨ o = Broken m →
          msg = "⚠️ Gagal menyimpan file audio respons: " +:+ m) ∧
    (o = Vanished ∨ o = Truncated →
     msg = "⚠️ File audio respons kosong atau tidak valid").
Proof.
  intros Hin H200 Hbody Hwrites Ho.
  all_runs env audio w; only_entry Hin; try congruence.
  all: eexists; split; [reflexivity|].
  all: split; [intros ? [?|?]|intros [?|?]]; cbn [str_exn]; congruence.
Qed.

(** Lines 18-124.  What one run can do to the world: it sends at most one
    request; it writes nothing, or the input file, or the input file and
    then the output file, and the second only after a request; it reads the
    clock at most twice; and the logs only grow. *)
Theorem voice_chat_bounded_effects (audio : option (Z * ndarray))
    (w : World) :
  let w' := run_world env audio w in
  posts w' = (issued env audio w ++ posts w)%list ∧
  writes w' = (written env audio w ++ writes w)%list ∧
  (length (issued env audio w) ≤ 1)%nat ∧
  (written env audio w = [] ∧ issued env audio w = [] ∨
   (∃ wav o, written env audio w = [(input_path env w, wav, o)]) ∨
   (∃ body o wav o',
      written env audio w
        = [(output_path env w, body, o); (input_path env w, wav, o')] ∧
      length (issued env audio w) = 1%nat)) ∧
  (clock_reads w ≤ clock_reads w' ≤ clock_reads w + 2)%nat.
Proof.
  unfold input_path, output_path. all_runs env audio w.
  all: repeat split; try reflexivity; try (simpl; lia).
  all: eauto 10.
Qed.

(** Lines 18-124.  The handler writes to its own two paths and to nothing
    else, and it never removes a file: unless the disk loses one of the two
    files it writes, every file that was there before the run is there
    after it. *)
Theorem voice_chat_keeps_other_files (audio : option (Z * ndarray))
    (w : World) :
  (∀ p, p ≠ input_path env w → p ≠ output_path env w →
        files (run_world env audio w) !! p = files w !! p) ∧
  (∀ p, (∀ q d, (q, d, Vanished) ∉ written env audio w) →
        is_Some (files w !! p) →
        is_Some (files (run_world env audio w) !! p)).
Proof.
  split.
  - intros p. apply files_frame.
  - intros p Hkept Hthere. all_runs env audio w; try done.
    all: try (exfalso; eapply Hkept; repeat constructor; fail).
    all: rewrite !lookup_insert_is_Some'; auto.
Qed.

(** Two texts that differ within their first four bytes. *)
Lemma distinct_start (a b : string) :
  String.substring 0 4 a ≠ String.substring 0 4 b → a ≠ b.
Proof. intros Hstart ->. by apply Hstart. Qed.

(** Lines 18-124.  The status text and the player agree: the success text
    is returned with a path, and every other text without one. *)
Theorem voice_chat_success_message (audio : option (Z * ndarray)) (w : World)
    (path : option string) (msg : string) :
  run_result env audio w = Ret (path, msg) →
  (is_Some path ↔ msg = "✅ Jawaban siap diputar").
Proof.
  intros Hres. all_runs env audio w.
  all: split; [intros [? ?]|intros Hmsg]; try done; try by eexists.
  all: exfalso; revert Hmsg; apply distinct_start; by vm_compute.
Qed.

End Handler_more.

(** * The page *)

Section Page_properties.

Context {ndarray : Type} (env : Env ndarray).

(** The handler hands back a pair, whatever happens. *)
Lemma voice_chat_returns (audio : option (Z * ndarray)) (w : World) :
  ∃ path msg, voice_chat env audio w
              = (Ret (path, msg), run_world env audio w).
Proof.
  unfold run_world.
  destruct (voice_chat env audio w) as [res w'] eqn:Hrun. cbn [snd].
  destruct audio as [[sr data]|];
    [run_cases Hrun | unfold voice_chat, ret in Hrun];
    simplify_eq; eauto.
Qed.

(** A path the handler returns names a file with something in it. *)
Lemma returned_file_exists (audio : option (Z * ndarray)) (w : World)
    (path msg : string) :
  run_result env audio w = Ret (Some path, msg) →
  ∃ b, files (run_world env audio w) !! path = Some b ∧ (0 < length b)%nat.
Proof.
  intros Hres. all_runs env audio w.
  all: rewrite lookup_insert_eq; eexists; split; [reflexivity|simpl; lia].
Qed.

Lemma session_app (evs1 evs2 : list (event ndarray)) (s : Page * World) :
  session env (evs1 ++ evs2) s = session env evs2 (session env evs1 s).
Proof. apply foldl_app. Qed.

(** What a click on the submit button does to the page, in terms of the
    handler's answer. *)
Lemma submit_click_page (audio : option (Z * ndarray)) (s : Page * World) :
  ∃ path msg,
    run_result env audio (snd s) = Ret (path, msg) ∧
    submit_click env audio s
      = (mkPage (ready_indicator (fst s)) (recording_active (fst s)) false
           path msg,
         run_world env audio (snd s)).
Proof.
  destruct (voice_chat_returns audio (snd s)) as (path & msg & Hrun).
  exists path, msg. unfold run_result.
  unfold submit_click, click_hide, click_voice_chat, click_show.
  cbn [fst snd]. by rewrite Hrun.
Qed.

(** Lines 480-484, 519-529 and 603-612.  Whatever the user does, exactly
    one of the two recording indicators is on the page. *)
Theorem recording_indicators_exclusive (evs : list (event ndarray))
    (w : World) :
  let page := fst (session env evs (initial_page, w)) in
  ready_indicator page = negb (recording_active page).
Proof.
  cbn zeta.
  assert (∀ s, ready_indicator (fst s) = negb (recording_active (fst s)) →
            ready_indicator (fst (session env evs s))
            = negb (recording_active (fst (session env evs s)))) as Hinv.
  { induction evs as [|ev evs IH]; intros s Hs; [done|].
    apply IH. destruct ev as [| |audio]; cbn [handle fst]; [done..|].
    destruct (submit_click_page audio s) as (path & msg & _ & ->).
    done. }
  by apply Hinv.
Qed.

(** Lines 545, 596-600 and 615-625.  The processing indicator is on the
    page exactly while the handler runs: it is shown by the first link of
    the chain, still shown when the handler is done, and hidden by the last
    link whatever the handler answered; between events it is never shown. *)
Theorem processing_indicator_brackets_request (evs : list (event ndarray))
    (w : World) (audio : option (Z * ndarray)) :
  let s := session env evs (initial_page, w) in
  processing_indicator (fst s) = false ∧
  processing_indicator (fst (click_show s)) = true ∧
  processing_indicator (fst (click_voice_chat env audio (click_show s)))
    = true ∧
  processing_indicator (fst (submit_click env audio s)) = false.
Proof.
  cbn zeta. split; [|split; [done|split]].
  - assert (∀ s, processing_indicator (fst s) = false →
              processing_indicator (fst (session env evs s)) = false)
      as Hinv.
    { induction evs as [|ev evs IH]; intros s Hs; [done|].
      apply IH. destruct ev as [| |audio']; cbn [handle fst]; [done..|].
      by destruct (submit_click_page audio' s) as (path & msg & _ & ->). }
    by apply Hinv.
  - unfold click_voice_chat. cbn [fst snd click_show].
    destruct (voice_chat_returns audio
                (snd (session env evs (initial_page, w))))
      as (path & msg & ->).
    done.
  - by destruct (submit_click_page audio
                   (session env evs (initial_page, w)))
      as (path & msg & _ & ->).
Qed.

(** Lines 603-625.  The recording indicator shows the last recording event:
    after a start it stays on, and after a stop it stays off, through any
    number of submissions. *)
Theorem recording_indicator_follows_microphone
    (evs submits : list (event ndarray)) (s : Page * World) :
  Forall is_submit submits →
  recording_active
    (fst (session env (evs ++ StartRecording :: submits) s)) = true ∧
  recording_active
    (fst (session env (evs ++ StopRecording :: submits) s)) = false.
Proof.
  intros Hsubmits.
  assert (∀ s', recording_active (fst (session env submits s'))
                = recording_active (fst s')) as Hkeep.
  { induction Hsubmits as [|ev submits Hev _ IH]; intros s'; [done|].
    cbn [session foldl]. fold (session env submits (handle env ev s')).
    rewrite IH. destruct ev as [| |audio]; [done..|].
    cbn [handle].
    by destruct (submit_click_page audio s') as (path & msg & _ & ->). }
  rewrite !session_app. cbn [session foldl].
  split.
  - fold (session env submits
            (handle env StartRecording (session env evs s))).
    by rewrite Hkeep.
  - fold (session env submits
            (handle env StopRecording (session env evs s))).
    by rewrite Hkeep.
Qed.

(** Lines 98-109 and 619-621.  At every moment the path in the audio player
    names a file that exists and is not empty. *)
Theorem player_file_exists (evs : list (event ndarray)) (w : World)
    (path : string) :
  let s := session env evs (initial_page, w) in
  audio_output (fst s) = Some path →
  ∃ b, files (snd s) !! path = Some b ∧ (0 < length b)%nat.
Proof.
  cbn zeta. revert path.
  assert (∀ s,
            (∀ path, audio_output (fst s) = Some path →
                     ∃ b, files (snd s) !! path = Some b ∧ (0 < length b)%nat) →
            ∀ path, audio_output (fst (session env evs s)) = Some path →
                    ∃ b, files (snd (session env evs s)) !! path = Some b ∧
                         (0 < length b)%nat) as Hinv.
  { induction evs as [|ev evs IH]; intros s Hs; [done|].
    apply IH. destruct ev as [| |audio]; cbn [handle fst snd]; [done..|].
    destruct (submit_click_page audio s) as (path' & msg & Hres & ->).
    cbn [fst snd audio_output]. intros path ->.
    by eapply returned_file_exists. }
  apply Hinv. by intros path.
Qed.

(** Lines 615-625.  After a click on the submit button the page shows what
    the handler answered, the path in the player and the text in the status
    box, and the recording indicators are as they were. *)
Theorem submit_click_shows_answer (audio : option (Z * ndarray))
    (s : Page * World) :
  let s' := submit_click env audio s in
  run_result env audio (snd s)
    = Ret (audio_output (fst s'), status_msg (fst s')) ∧
  snd s' = run_world env audio (snd s) ∧
  ready_indicator (fst s') = ready_indicator (fst s) ∧
  recording_active (fst s') = recording_active (fst s).
Proof.
  cbn zeta.
  by destruct (submit_click_page audio s) as (path & msg & Hres & ->).
Qed.

(** Lines 19-20 and 615-625.  A click without a recording empties the
    player, shows the warning, and leaves the disk and the network alone. *)
Theorem submit_without_recording (s : Page * World) :
  submit_click env None s
    = (mkPage (ready_indicator (fst s)) (recording_active (fst s)) false
         None "⚠️ Rekaman suara diperlukan",
       snd s).
Proof. by destruct s as [p [fs n ws ps]]. Qed.

(** One run adds at most one request to the log, and none when there is no
    recording. *)
Lemma posts_growth (audio : option (Z * ndarray)) (w : World) :
  (length (posts (run_world env audio w))
   ≤ length (posts w) + match audio with Some _ => 1 | None => 0 end)%nat.
Proof.
  unfold run_world.
  destruct (voice_chat env audio w) as [res w'] eqn:Hrun. cbn [snd].
  destruct audio as [[sr data]|];
    [run_cases Hrun | unfold voice_chat, ret in Hrun];
    simplify_eq; simpl; lia.
Qed.

(** Lines 603-625.  Over a whole session the server is contacted at most
    once for each click made with a recording: starting and stopping the
    microphone sends nothing, and nothing is ever sent twice. *)
Theorem session_requests_bounded (evs : list (event ndarray))
    (s : Page * World) :
  (length (posts (snd (session env evs s)))
   ≤ length (posts (snd s)) + recordings_submitted evs)%nat.
Proof.
  revert s. induction evs as [|ev evs IH]; intros s; [simpl; lia|].
  cbn [session foldl]. fold (session env evs (handle env ev s)).
  specialize (IH (handle env ev s)).
  destruct ev as [| |audio]; cbn [handle snd recordings_submitted] in *;
    [lia..|].
  destruct (submit_click_page audio s) as (path & msg & _ & Hpage).
  rewrite Hpage in IH |- *. cbn [snd] in IH.
  pose proof (posts_growth audio (snd s)) as Hgrow.
  destruct audio; cbn [recordings_submitted] in *; lia.
Qed.

End Page_properties.

(** Lines 587-593.  The markup of a status box tells the message and the
    kind of box apart: equal markup means equal message and equal kind,
    where an error is an error whether or not it is also flagged as a
    warning. *)
Theorem update_status_tells_apart (m1 m2 : string) (e1 w1 e2 w2 : bool) :
  update_status m1 e1 w1 = update_status m2 e2 w2 ↔
  m1 = m2 ∧ e1 = e2 ∧ (e1 = false → w1 = w2).
Proof.
  split.
  - intros H.
    destruct e1, w1, e2, w2; unfold update_status in H;
      first [ exfalso; apply (f_equal (String.substring 0 31)) in H;
              vm_compute in H; discriminate H
            | do 5 apply (inj (String.app _)) in H;
              apply string_app_inj_r in H; by subst ].
  - intros (-> & -> & Hw). destruct e2; [done|]. by rewrite Hw.
Qed.

(** * The further properties at work on concrete runs *)

Lemma voice_chat_transport_error_witness :
  let env := lab_env good_disk readable broken_server in
  run_result env demo_audio empty_world
    = Ret (None, "🔴 Kesalahan: Invalid URL") ∧
  issued env demo_audio empty_world
    = [(demo_request, PostRaises (OtherException "Invalid URL"))] ∧
  ∃ wav o, written env demo_audio empty_world
           = [(input_path env empty_world, wav, o)].
Proof.
  intros env.
  apply (voice_chat_transport_error env demo_audio empty_world demo_request
           "Invalid URL").
  vm_compute. apply list_elem_of_singleton. reflexivity.
Defined.

Lemma voice_chat_unreadable_input_witness :
  let env := lab_env good_disk locked_files echo_server in
  run_result env (Some (16000, [1; -2; 3])) empty_world
    = Ret (None, "🔴 Kesalahan: Permission denied") ∧
  issued env (Some (16000, [1; -2; 3])) empty_world = [].
Proof.
  intros env.
  apply (voice_chat_unreadable_input env 16000 [1; -2; 3] empty_world
           demo_wav "Permission denied").
  - vm_compute. reflexivity.
  - left. reflexivity.
  - reflexivity.
Defined.


Lemma voice_chat_input_vanished_witness :
  let env := lab_env lossy_disk readable echo_server in
  run_result env (Some (16000, [1; -2; 3])) empty_world
    = Ret (None, "⚠️ Gagal menyimpan rekaman") ∧
  issued env (Some (16000, [1; -2; 3])) empty_world = [].
Proof.
  intros env.
  apply (voice_chat_input_vanished env 16000 [1; -2; 3] empty_world demo_wav).
  - vm_compute. reflexivity.
  - reflexivity.
Defined.

Lemma voice_chat_uploads_saved_file_witness :
  ∃ data,
    files (run_world demo_env demo_audio empty_world)
      !! input_path demo_env empty_world = Some data ∧
    demo_request
      = mkRequest API_URL
          [mkFilePart "file"
             (input_filename (clock demo_env (clock_reads empty_world)))
             data "audio/wav"]
          REQUEST_TIMEOUT.
Proof.
  apply (voice_chat_uploads_saved_file demo_env demo_audio empty_world
           demo_request (PostReturns (mkResponse 200 demo_wav))).
  vm_compute. apply list_elem_of_singleton. reflexivity.
Defined.

Lemma voice_chat_reply_not_persisted_witness :
  let env := lab_env full_disk readable echo_server in
  run_result env demo_audio empty_world
    = Ret (None,
           "⚠️ Gagal menyimpan file audio respons: No space left on device").
Proof.
  intros env.
  destruct (voice_chat_reply_not_persisted env demo_audio empty_world
              demo_request (mkResponse 200 demo_wav)
              "/tmp/tts_output_1700000000.wav"
              (Refused "No space left on device")
              [("/tmp/input_1700000000.wav", demo_wav, Stored)])
    as (msg & Hres & Hrefused & _).
  - vm_compute. apply list_elem_of_singleton. reflexivity.
  - reflexivity.
  - vm_compute. discriminate.
  - vm_compute. reflexivity.
  - discriminate.
  - by rewrite (Hrefused _ (or_introl eq_refl)) in Hres.
Defined.

Lemma voice_chat_keeps_other_files_witness :
  is_Some (files (run_world demo_env demo_audio busy_world)
             !! "/tmp/notes.txt") ∧
  files (run_world demo_env demo_audio busy_world) !! "/tmp/notes.txt"
    = files busy_world !! "/tmp/notes.txt".
Proof.
  destruct (voice_chat_keeps_other_files demo_env demo_audio busy_world)
    as [Hframe Hkept].
  split.
  - apply Hkept.
    + intros q d Hin. vm_compute in Hin.
      apply elem_of_cons in Hin as [Hin|Hin]; [discriminate Hin|].
      apply list_elem_of_singleton in Hin. discriminate Hin.
    + vm_compute. by eexists.
  - apply Hframe; vm_compute; discriminate.
Defined.

Lemma voice_chat_success_message_witness :
  is_Some (Some "/tmp/tts_output_1700000000.wav")
  ↔ "✅ Jawaban siap diputar" = "✅ Jawaban siap diputar".
Proof.
  apply (voice_chat_success_message demo_env demo_audio empty_world).
  vm_compute. reflexivity.
Defined.

Lemma recording_indicator_follows_microphone_witness :
  recording_active
    (fst (session demo_env
            ([StopRecording] ++ StartRecording :: [SubmitClick demo_audio])
            (initial_page, empty_world))) = true ∧
  recording_active
    (fst (session demo_env
            ([StopRecording] ++ StopRecording :: [SubmitClick demo_audio])
            (initial_page, empty_world))) = false.
Proof.
  apply (recording_indicator_follows_microphone demo_env [StopRecording]
           [SubmitClick demo_audio] (initial_page, empty_world)).
  repeat constructor.
Defined.

Lemma player_file_exists_witness :
  let s := session demo_env
             [StartRecording; StopRecording; SubmitClick demo_audio]
             (initial_page, empty_world) in
  ∃ b, files (snd s) !! "/tmp/tts_output_1700000000.wav" = Some b ∧
       (0 < length b)%nat.
Proof.
  intros s.
  apply (player_file_exists demo_env
           [StartRecording; StopRecording; SubmitClick demo_audio]
           empty_world "/tmp/tts_output_1700000000.wav").
  vm_compute. reflexivity.
Defined.

Lemma update_status_tells_apart_witness :
  update_status "Selesai" true true = update_status "Selesai" true false ∧
  update_status "Selesai" false true ≠ update_status "Selesai" false false.
Proof.
  split.
  - apply (update_status_tells_apart "Selesai" "Selesai" true true true false).
    repeat split. discriminate.
  - intros H.
    apply (update_status_tells_apart "Selesai" "Selesai" false true false
             false) in H as (_ & _ & Hkind).
    by specialize (Hkind eq_refl).
Defined.
